(** * Eligibility validation of the voter-registration application

    A shallow embedding of [app/models.py] (with the name check of
    [app/forms.py]) and the properties of its eligibility core:
    [RegisteredVoter.get_eligible_names], [Voter.is_eligible_voter],
    [Voter.clean] and [Voter.save].

    Text.  A Python [str] is a sequence of code points.  The development
    covers the strings whose code points are below 256 (Python's one-byte
    string kind, Latin-1), so a [str] is a Rocq [string] and a code point
    is an [ascii].  On that range [str.lower] acts on each code point and
    [str.strip] removes the twelve code points for which [str.isspace]
    holds.  [PyUnicode] gives [str.strip] and [str.lower] over texts of
    any code points, the tables of the Unicode database being its
    parameter, to show that the two commute there as well.

    Storage.  [RegisteredVoter.objects.all()] is the list of the stored
    rows in the order the database returns them.  The framework's
    [Model.save] is not code of the application: it is a parameter of the
    development.

    Admin.  The views of [app/admin.py] that read the lists and the
    voters ([voter_count], [preview_names], [registration_status],
    [validate_all_registrations], [export_voter_data]) are embedded
    after the models; the export is the rows handed to the CSV writer. *)

From Stdlib Require Import Bool List Arith NArith ZArith Lia.
From Stdlib Require Import Ascii String DecimalString.
Import ListNotations.

Local Open Scope string_scope.
Local Open Scope list_scope.

(** ** Python strings *)

Module PyStr.

(** [ch.isspace()] for a code point below 256: TAB, LF, VT, FF, CR,
    the four separators FS, GS, RS and US, SPACE, NEL (0x85) and
    NO-BREAK SPACE (0xA0). *)
Definition isspace (c : ascii) : bool :=
  let n := N_of_ascii c in
  ((9 <=? n) && (n <=? 13) || (28 <=? n) && (n <=? 32)
   || (n =? 133) || (n =? 160))%N.

(** [ch.lower()] for a code point below 256: A-Z, and the capital
    letters 0xC0-0xDE of Latin-1 except the multiplication sign 0xD7,
    move up by 32. *)
Definition lower_char (c : ascii) : ascii :=
  let n := N_of_ascii c in
  if ((65 <=? n) && (n <=? 90)
      || (192 <=? n) && (n <=? 222) && negb (n =? 215))%N
  then ascii_of_N (n + 32)
  else c.

(** [s.lower()] *)
Fixpoint lower (s : string) : string :=
  match s with
  | EmptyString => EmptyString
  | String c s' => String (lower_char c) (lower s')
  end.

(** [s.lstrip()]: the index of the first code point that is not
    white space is found from the left. *)
Fixpoint lstrip (s : string) : string :=
  match s with
  | EmptyString => EmptyString
  | String c s' => if isspace c then lstrip s' else s
  end.

(** [s.rstrip()]: the white space at the right end is dropped. *)
Fixpoint rstrip (s : string) : string :=
  match s with
  | EmptyString => EmptyString
  | String c s' =>
      match rstrip s' with
      | EmptyString => if isspace c then EmptyString else String c EmptyString
      | r => String c r
      end
  end.

(** [s.strip()]: the left index is advanced first, then the right
    index is moved back, never below the left one. *)
Definition strip (s : string) : string := rstrip (lstrip s).

(** Truth value of a [str]: it is not empty. *)
Definition truthy (s : string) : bool :=
  match s with
  | EmptyString => false
  | String _ _ => true
  end.

(** [s.split(sep)] for a separator of one code point: the pieces
    between the occurrences of [sep], empty pieces included; never an
    empty list. *)
Fixpoint split (sep : ascii) (s : string) : list string :=
  match s with
  | EmptyString => [EmptyString]
  | String c s' =>
      if Ascii.eqb c sep then EmptyString :: split sep s'
      else match split sep s' with
           | [] => [String c EmptyString]
           | piece :: rest => String c piece :: rest
           end
  end.

(** [sep.join(pieces)] *)
Fixpoint join (sep : ascii) (pieces : list string) : string :=
  match pieces with
  | [] => EmptyString
  | [p] => p
  | p :: rest => p ++ String sep (join sep rest)
  end.

(** [x in xs] for a list of [str] *)
Fixpoint contains (x : string) (xs : list string) : bool :=
  match xs with
  | [] => false
  | y :: ys => if String.eqb x y then true else contains x ys
  end.

(** [ch in s] for a code point *)
Fixpoint has_char (c : ascii) (s : string) : bool :=
  match s with
  | EmptyString => false
  | String d s' => Ascii.eqb d c || has_char c s'
  end.

(** Every code point of [s] is white space (so is the empty text). *)
Fixpoint all_space (s : string) : bool :=
  match s with
  | EmptyString => true
  | String c s' => isspace c && all_space s'
  end.

(** The line feed, ['\n']. *)
Definition LF : ascii := ascii_of_N 10.

End PyStr.

(** ** Python strings of any code points *)

Module PyUnicode.

(** The tables of the Unicode database that [str.strip] and
    [str.lower] consult, one entry for each code point: [str.isspace],
    the full lower-case mapping (one to three code points), and the
    properties Cased and Case_Ignorable. *)
Record tables : Type := mkTables {
  isspace : N -> bool;
  lower_full : N -> list N;
  is_cased : N -> bool;
  is_case_ignorable : N -> bool
}.

(** GREEK CAPITAL LETTER SIGMA and its two lower-case forms. *)
Definition CAPITAL_SIGMA : N := 931.
Definition FINAL_SIGMA : N := 962.
Definition SMALL_SIGMA : N := 963.

Fixpoint lstrip (T : tables) (s : list N) : list N :=
  match s with
  | [] => []
  | c :: r => if isspace T c then lstrip T r else s
  end.

Fixpoint rstrip (T : tables) (s : list N) : list N :=
  match s with
  | [] => []
  | c :: r =>
      match rstrip T r with
      | [] => if isspace T c then [] else [c]
      | x => c :: x
      end
  end.

(** [s.strip()] *)
Definition strip (T : tables) (s : list N) : list N := rstrip T (lstrip T s).

(** The second half of the final-sigma test: after the case-ignorable
    code points that follow, the text ends or goes on with a code point
    that is not cased. *)
Fixpoint no_cased_ahead (T : tables) (rest : list N) : bool :=
  match rest with
  | [] => true
  | c :: r =>
      if is_case_ignorable T c then no_cased_ahead T r
      else negb (is_cased T c)
  end.

(** The lower case of one code point in its context: a capital sigma
    becomes the final sigma when a cased code point precedes it (over
    case-ignorable ones) and none follows, the small sigma otherwise;
    every other code point has its full mapping. *)
Definition lower_at (T : tables) (before : bool) (c : N) (rest : list N)
  : list N :=
  if (c =? CAPITAL_SIGMA)%N
  then [if before && no_cased_ahead T rest then FINAL_SIGMA else SMALL_SIGMA]
  else lower_full T c.

(** [before] tells whether the nearest code point to the left that is
    not case-ignorable is cased. *)
Fixpoint lower_from (T : tables) (before : bool) (s : list N) : list N :=
  match s with
  | [] => []
  | c :: r =>
      lower_at T before c r
      ++ lower_from T (if is_case_ignorable T c then before else is_cased T c) r
  end.

(** [s.lower()] *)
Definition lower (T : tables) (s : list N) : list N := lower_from T false s.

(** What the tables say of white space: a white-space code point is its
    own lower case and is neither cased nor case-ignorable; the sigmas
    are not white space; the lower case of any other code point is not
    empty and holds no white space. *)
Record whitespace_uncased (T : tables) : Prop := {
  space_lower : forall c, isspace T c = true -> lower_full T c = [c];
  space_cased : forall c, isspace T c = true -> is_cased T c = false;
  space_ignorable :
    forall c, isspace T c = true -> is_case_ignorable T c = false;
  sigma_capital : isspace T CAPITAL_SIGMA = false;
  sigma_final : isspace T FINAL_SIGMA = false;
  sigma_small : isspace T SMALL_SIGMA = false;
  nonspace_lower :
    forall c, isspace T c = false ->
              lower_full T c <> [] /\
              Forall (fun d => isspace T d = false) (lower_full T c)
}.

(** The tables on the code points below 256, as [PyStr] has them;
    beyond that range they say nothing: no white space, no cased or
    case-ignorable code point, every code point its own lower case. *)
Definition latin1_tables : tables :=
  mkTables
    (fun c => (c <? 256)%N && PyStr.isspace (ascii_of_N c))
    (fun c => if (c <? 256)%N
              then [N_of_ascii (PyStr.lower_char (ascii_of_N c))]
              else [c])
    (fun _ => false)
    (fun _ => false).

(** A small table for examples: SPACE is the white space, A-Z map to
    a-z, LATIN CAPITAL LETTER I WITH DOT ABOVE maps to two code points,
    the letters and the sigmas are cased, the apostrophe is
    case-ignorable. *)
Definition sample_tables : tables :=
  mkTables
    (fun c => (c =? 32)%N)
    (fun c => if ((65 <=? c) && (c <=? 90))%N then [(c + 32)%N]
              else if (c =? 304)%N then [105%N; 775%N]
              else [c])
    (fun c => ((65 <=? c) && (c <=? 90) || (97 <=? c) && (c <=? 122)
               || (c =? 304) || (c =? 931) || (c =? 962) || (c =? 963))%N)
    (fun c => (c =? 39)%N).

End PyUnicode.

(** ** The models of [app/models.py] *)

(** [RegisteredVoter]: the primary key the framework gives the row, and
    the text field [names], one eligible name on each line. *)
Record RegisteredVoter : Type := mkRegisteredVoter {
  pk : Z;
  names : string
}.

(** [Voter]: four text fields and the nullable foreign key
    [registered_list]; [None] is the null reference. *)
Record Voter : Type := mkVoter {
  fullname : string;
  email : string;
  telephone : string;
  student_id : string;
  registered_list : option RegisteredVoter
}.

(** The stored rows: [RegisteredVoter.objects.all()] in the order of
    retrieval, and [Voter.objects.all()]. *)
Record Store : Type := mkStore {
  registered_voters : list RegisteredVoter;
  voters : list Voter
}.

(** The exceptions a save can end in: the [ValidationError] of
    [Voter.clean] and of the form, with its message, and an error of the
    database raised inside the framework's [Model.save]. *)
Inductive exn : Type :=
| ValidationError (message : string)
| DatabaseError.

(** [RegisteredVoter.get_eligible_names]:
    [[name.strip().lower() for name in self.names.split('\n')
      if name.strip()]] when [self.names] is not empty, [[]] otherwise.
    The result is a Python list. *)
Definition get_eligible_names (self : RegisteredVoter) : list string :=
  if PyStr.truthy (names self) then
    map (fun name => PyStr.lower (PyStr.strip name))
        (filter (fun name => PyStr.truthy (PyStr.strip name))
                (PyStr.split PyStr.LF (names self)))
  else [].

(** The test of the loop of [Voter.is_eligible_voter]:
    [fullname.lower().strip() in eligible_names]. *)
Definition name_in_list (fullname : string) (voter_list : RegisteredVoter)
  : bool :=
  let eligible_names := get_eligible_names voter_list in
  PyStr.contains (PyStr.strip (PyStr.lower fullname)) eligible_names.

(** The [for] loop of [Voter.is_eligible_voter] over the rows still to
    visit: the first row that passes the test is returned, [None] when
    the rows are exhausted. *)
Fixpoint is_eligible_voter_loop (registered_lists : list RegisteredVoter)
  (fullname : string) : option RegisteredVoter :=
  match registered_lists with
  | [] => None
  | voter_list :: rest =>
      if name_in_list fullname voter_list then Some voter_list
      else is_eligible_voter_loop rest fullname
  end.

(** [Voter.is_eligible_voter(fullname)] *)
Definition is_eligible_voter (db : Store) (fullname : string)
  : option RegisteredVoter :=
  is_eligible_voter_loop (registered_voters db) fullname.

Definition not_found_message : string :=
  "The name you provided is not found in our registered voter list. Please contact the administrator if you believe this is an error.".

Definition form_not_found_message : string :=
  "The name you provided is not found in our registered voter list. Please ensure you enter your name exactly as registered, or contact the administrator for assistance.".

(** [self.registered_list = eligible_list] *)
Definition set_registered_list (self : Voter) (l : RegisteredVoter) : Voter :=
  mkVoter (fullname self) (email self) (telephone self) (student_id self)
          (Some l).

(** [Voter.clean]: raises when [is_eligible_voter] returns [None] (a
    model instance is always true, so [not eligible_list] holds for
    [None] only), otherwise assigns the list found to
    [self.registered_list].  The result is the exception raised or
    [self] after the call. *)
Definition clean (db : Store) (self : Voter) : exn + Voter :=
  match is_eligible_voter db (fullname self) with
  | None => inl (ValidationError not_found_message)
  | Some eligible_list => inr (set_registered_list self eligible_list)
  end.

(** [VoterRegistrationForm.clean_fullname]; the argument is
    [self.cleaned_data.get('fullname')], [None] when the key is
    absent. *)
Definition clean_fullname (db : Store) (cleaned : option string)
  : exn + option string :=
  match cleaned with
  | Some fullname =>
      if PyStr.truthy fullname then
        match is_eligible_voter db fullname with
        | None => inl (ValidationError form_not_found_message)
        | Some _ => inr cleaned
        end
      else inr cleaned
  | None => inr None
  end.

Section Save.

(** The framework's [Model.save]: the store with the row written, or
    [None] when the database refuses the row (a uniqueness constraint,
    for example) and the store stays as it was. *)
Variable Model_save : Store -> Voter -> option Store.

(** [Voter.save]: [self.clean()] and then [super().save()].  The result
    is the exception raised or [self] after the call, and the store
    after the call. *)
Definition save (db : Store) (self : Voter) : (exn + Voter) * Store :=
  match clean db self with
  | inl e => (inl e, db)
  | inr self' =>
      match Model_save db self' with
      | Some db' => (inr self', db')
      | None => (inl DatabaseError, db)
      end
  end.

End Save.

(** ** The specification's normal form *)

(** [normalize(name)] as the specification words it: the name trimmed,
    then lower-cased.  The code has no function of that name; it writes
    [name.strip().lower()] for a stored line and
    [fullname.lower().strip()] for the candidate. *)
Definition normalize (name : string) : string :=
  PyStr.lower (PyStr.strip name).

(** ** Sample data *)

(** The text ["\n"]. *)
Definition nl : string := String PyStr.LF EmptyString.

(** ["John Smith\nJane Doe\n\n  Michael Johnson  \n"] *)
Definition sample_text : string :=
  "John Smith" ++ nl ++ "Jane Doe" ++ nl ++ nl ++ "  Michael Johnson  " ++ nl.

Definition sample_list : RegisteredVoter := mkRegisteredVoter 1 sample_text.

Definition list_A : RegisteredVoter := mkRegisteredVoter 1 "Alice".
Definition list_B : RegisteredVoter := mkRegisteredVoter 2 "Bob".
Definition db_AB : Store := mkStore [list_A; list_B] [].

(** A list whose text repeats a name: ["a\na"]. *)
Definition list_twice : RegisteredVoter := mkRegisteredVoter 3 ("a" ++ nl ++ "a").

(** A list with a blank line between two names and one at the end. *)
Definition list_blank : RegisteredVoter :=
  mkRegisteredVoter 4 ("Alice" ++ nl ++ "   " ++ nl ++ "Bob" ++ nl).

Definition voter_bob : Voter :=
  mkVoter " BOB " "bob@example.com" "+1234567890" "S001" None.

Definition voter_carol : Voter :=
  mkVoter "carol" "carol@example.com" "+1234567891" "S002" (Some list_A).

(** A voter named as in list B whose caller set the reference to
    list A. *)
Definition voter_bob_with_A : Voter :=
  mkVoter "Bob" "bob@example.com" "+1234567890" "S001" (Some list_A).

(** A database that accepts every row and appends it to the table. *)
Definition append_row (db : Store) (v : Voter) : option Store :=
  Some (mkStore (registered_voters db) (voters db ++ [v])).

(** ** The admin views of [app/admin.py] *)

(** [str(n)] for an [int] that is not negative. *)
Definition str_of_nat (n : nat) : string :=
  NilZero.string_of_uint (Nat.to_uint n).

(** [sep.join(pieces)] for a separator text. *)
Fixpoint join_str (sep : string) (pieces : list string) : string :=
  match pieces with
  | [] => EmptyString
  | [p] => p
  | p :: rest => p ++ sep ++ join_str sep rest
  end.

(** The comprehension of [voter_count] and [preview_names]:
    [[name.strip() for name in obj.names.split('\n') if name.strip()]].
    The names keep their letter case. *)
Definition stripped_names (text : string) : list string :=
  map (fun name => PyStr.strip name)
      (filter (fun name => PyStr.truthy (PyStr.strip name))
              (PyStr.split PyStr.LF text)).

(** [RegisteredVoterAdmin.voter_count]; [format_html] puts the decimal
    form of the count, which needs no escaping, into the template. *)
Definition voter_count (obj : RegisteredVoter) : string :=
  if PyStr.truthy (names obj) then
    let count := List.length (stripped_names (names obj)) in
    "<strong>" ++ str_of_nat count ++ "</strong> eligible voters"
  else "0 eligible voters".

(** [RegisteredVoterAdmin.preview_names] *)
Definition preview_names (obj : RegisteredVoter) : string :=
  if PyStr.truthy (names obj) then
    let names := stripped_names (names obj) in
    match names with
    | [] => "No names added"
    | _ :: _ =>
        let preview := join_str ", " (firstn 3 names) in
        if (3 <? List.length names)%nat then
          preview ++ " ... (+" ++ str_of_nat (List.length names - 3)
                  ++ " more)"
        else preview
    end
  else "No names added".

(** The three texts [VoterAdmin.registration_status] can return: the
    red span "No eligible voter list assigned", the green span "Valid
    Registration" and the red span "Name not in eligible list". *)
Inductive status_html : Type :=
| NoListAssigned
| ValidRegistration
| NameNotInList.

(** [VoterAdmin.registration_status]: the names are derived in place,
    and the fullname is lower-cased but not trimmed. *)
Definition registration_status (obj : Voter) : status_html :=
  match registered_list obj with
  | None => NoListAssigned
  | Some l =>
      if negb (PyStr.truthy (names l)) then NoListAssigned
      else
        let eligible_names :=
          map (fun name => PyStr.lower (PyStr.strip name))
              (filter (fun name => PyStr.truthy (PyStr.strip name))
                      (PyStr.split PyStr.LF (names l))) in
        if PyStr.contains (PyStr.lower (fullname obj)) eligible_names
        then ValidRegistration
        else NameNotInList
  end.

(** The test [voter.fullname.lower() in eligible_names] of the two
    admin actions, made when [voter.registered_list] is set. *)
Definition lowered_name_in_list (voter : Voter) (l : RegisteredVoter) : bool :=
  let eligible_names := get_eligible_names l in
  PyStr.contains (PyStr.lower (fullname voter)) eligible_names.

(** The loop of [VoterAdmin.validate_all_registrations] with its two
    counters. *)
Fixpoint validate_loop (queryset : list Voter) (valid_count invalid_count : nat)
  : nat * nat :=
  match queryset with
  | [] => (valid_count, invalid_count)
  | voter :: rest =>
      match registered_list voter with
      | Some l =>
          if lowered_name_in_list voter l
          then validate_loop rest (valid_count + 1) invalid_count
          else validate_loop rest valid_count (invalid_count + 1)
      | None => validate_loop rest valid_count (invalid_count + 1)
      end
  end.

(** [VoterAdmin.validate_all_registrations]: the message handed to
    [message_user]. *)
Definition validate_all_registrations (queryset : list Voter) : string :=
  let '(valid_count, invalid_count) := validate_loop queryset 0 0 in
  "Validation complete: " ++ str_of_nat valid_count
    ++ " valid registrations, " ++ str_of_nat invalid_count
    ++ " invalid registrations.".

(** The status column of [VoterAdmin.export_voter_data]. *)
Definition export_status (voter : Voter) : string :=
  match registered_list voter with
  | Some l => if lowered_name_in_list voter l then "Valid" else "Invalid"
  | None => "No List Assigned"
  end.

(** The rows [VoterAdmin.export_voter_data] hands to [writer.writerow],
    in order: the header, then one row for each voter. *)
Fixpoint export_rows (queryset : list Voter) : list (list string) :=
  match queryset with
  | [] => []
  | voter :: rest =>
      [fullname voter; email voter; telephone voter; student_id voter;
       export_status voter] :: export_rows rest
  end.

Definition export_voter_data (queryset : list Voter) : list (list string) :=
  ["Full Name"; "Email"; "Phone"; "Student ID"; "Status"]
    :: export_rows queryset.

(** ** Texts with carriage returns *)

(** The carriage return, ['\r']. *)
Definition CR : ascii := ascii_of_N 13.

(** The text with every line feed preceded by a carriage return, as a
    form submission carries the lines of a text area. *)
Fixpoint with_crlf (s : string) : string :=
  match s with
  | EmptyString => EmptyString
  | String c s' =>
      if Ascii.eqb c PyStr.LF then String CR (String c (with_crlf s'))
      else String c (with_crlf s')
  end.

(** A list whose text is blank lines only. *)
Definition list_blank_only : RegisteredVoter :=
  mkRegisteredVoter 5 ("  " ++ nl ++ nl).

(** Five names, the second and the fourth with white space around. *)
Definition list_five : RegisteredVoter :=
  mkRegisteredVoter 6
    ("Ann" ++ nl ++ " Ben " ++ nl ++ "Cy" ++ nl ++ nl ++ "Di  " ++ nl ++ "Ed").

(** ** Code points *)

Module PyStrFacts.
Import PyStr.

Lemma isspace_lower_char (c : ascii) : isspace (lower_char c) = isspace c.
Proof. destruct c as [[] [] [] [] [] [] [] []]; reflexivity. Qed.

Lemma lower_char_idem (c : ascii) : lower_char (lower_char c) = lower_char c.
Proof. destruct c as [[] [] [] [] [] [] [] []]; reflexivity. Qed.

Lemma lower_char_LF (c : ascii) : Ascii.eqb (lower_char c) LF = Ascii.eqb c LF.
Proof. destruct c as [[] [] [] [] [] [] [] []]; reflexivity. Qed.

(** ** [lower] *)

Lemma lower_idem (s : string) : lower (lower s) = lower s.
Proof.
  induction s as [|c s IH]; simpl; [reflexivity|].
  now rewrite lower_char_idem, IH.
Qed.

Lemma lower_empty_inv (s : string) : lower s = "" -> s = "".
Proof. destruct s; simpl; [reflexivity | discriminate]. Qed.

Lemma truthy_true_iff (s : string) : truthy s = true <-> s <> "".
Proof. destruct s; simpl; split; congruence. Qed.

(** ** [lstrip], [rstrip] and [strip] *)

Lemma lstrip_head (s : string) (c : ascii) (r : string) :
  lstrip s = String c r -> isspace c = false.
Proof.
  induction s as [|d s IH]; simpl; [discriminate|].
  destruct (isspace d) eqn:E; [exact IH|].
  intros H; injection H as -> _; exact E.
Qed.

Lemma lstrip_nonspace (c : ascii) (s : string) :
  isspace c = false -> lstrip (String c s) = String c s.
Proof. intros H; simpl; now rewrite H. Qed.

Lemma rstrip_nonspace (c : ascii) (s : string) :
  isspace c = false -> rstrip (String c s) = String c (rstrip s).
Proof. intros H; simpl; rewrite H; now destruct (rstrip s). Qed.

Lemma rstrip_idem (s : string) : rstrip (rstrip s) = rstrip s.
Proof.
  induction s as [|c s IH]; simpl; [reflexivity|].
  destruct (rstrip s) as [|d r] eqn:E.
  - destruct (isspace c) eqn:Ec; simpl; [reflexivity | now rewrite Ec].
  - change (rstrip (String c (String d r))) with
      (match rstrip (String d r) with
       | "" => if isspace c then "" else String c ""
       | String _ _ as r' => String c r'
       end).
    now rewrite IH.
Qed.

Lemma lstrip_idem (s : string) : lstrip (lstrip s) = lstrip s.
Proof.
  destruct (lstrip s) as [|c r] eqn:E; [reflexivity|].
  apply lstrip_nonspace, (lstrip_head _ _ _ E).
Qed.

Lemma strip_idem (s : string) : strip (strip s) = strip s.
Proof.
  unfold strip.
  destruct (lstrip s) as [|c r] eqn:E; [reflexivity|].
  pose proof (lstrip_head _ _ _ E) as Hc.
  rewrite (rstrip_nonspace _ _ Hc), (lstrip_nonspace _ _ Hc),
    (rstrip_nonspace _ _ Hc).
  now rewrite rstrip_idem.
Qed.

Lemma lower_lstrip (s : string) : lower (lstrip s) = lstrip (lower s).
Proof.
  induction s as [|c s IH]; simpl; [reflexivity|].
  rewrite isspace_lower_char.
  destruct (isspace c); [exact IH | reflexivity].
Qed.

Lemma lower_rstrip (s : string) : lower (rstrip s) = rstrip (lower s).
Proof.
  induction s as [|c s IH]; simpl; [reflexivity|].
  rewrite <- IH, isspace_lower_char.
  destruct (rstrip s); simpl; [|reflexivity].
  now destruct (isspace c).
Qed.

(** Lower-casing and trimming commute. *)
Lemma lower_strip (s : string) : lower (strip s) = strip (lower s).
Proof. unfold strip; now rewrite lower_rstrip, lower_lstrip. Qed.

(** A trimmed, lower-cased text is left alone by both operations. *)
Lemma strip_lower_strip (s : string) :
  strip (lower (strip s)) = lower (strip s).
Proof. now rewrite <- lower_strip, strip_idem. Qed.

End PyStrFacts.

(** ** [split], [join] and membership *)

Module SplitFacts.
Import PyStr PyStrFacts.

Lemma contains_In (x : string) (xs : list string) :
  contains x xs = true <-> In x xs.
Proof.
  induction xs as [|y ys IH]; simpl.
  - split; [discriminate | tauto].
  - destruct (String.eqb_spec x y) as [->|Hne].
    + split; auto.
    + rewrite IH. split; [auto|]. intros [H|H]; [congruence | exact H].
Qed.

Lemma contains_false (x : string) (xs : list string) :
  contains x xs = false <-> ~ In x xs.
Proof.
  rewrite <- contains_In. destruct (contains x xs); split; congruence.
Qed.

Lemma split_not_nil (sep : ascii) (s : string) : split sep s <> [].
Proof.
  destruct s as [|c s]; simpl; [discriminate|].
  destruct (Ascii.eqb c sep); [discriminate|].
  destruct (split sep s); discriminate.
Qed.

(** Joining the pieces with the separator gives the text back. *)
Lemma join_split (sep : ascii) (s : string) : join sep (split sep s) = s.
Proof.
  induction s as [|c s IH]; simpl; [reflexivity|].
  destruct (Ascii.eqb_spec c sep) as [->|Hne].
  - pose proof (split_not_nil sep s) as Hn.
    change (join sep ("" :: split sep s)) with
      (match split sep s with
       | [] => ""
       | _ :: _ => ("" ++ String sep (join sep (split sep s)))%string
       end).
    destruct (split sep s) as [|p rest] eqn:E; [congruence|].
    cbn [append]. now rewrite IH.
  - destruct (split sep s) as [|p rest] eqn:E.
    + now destruct (split_not_nil sep s).
    + rewrite <- IH. destruct rest; reflexivity.
Qed.

(** No piece contains the separator. *)
Lemma split_no_sep (sep : ascii) (s : string) :
  Forall (fun piece => has_char sep piece = false) (split sep s).
Proof.
  induction s as [|c s IH]; simpl.
  - constructor; [reflexivity | constructor].
  - destruct (Ascii.eqb c sep) eqn:Ec.
    + constructor; [reflexivity | exact IH].
    + destruct (split sep s) as [|p rest]; constructor; simpl;
        rewrite ?Ec; simpl; try reflexivity; inversion IH; subst; auto.
Qed.

(** The pieces are determined by those two facts: splitting the join of
    separator-free pieces returns the pieces. *)
Lemma split_join (sep : ascii) (pieces : list string) :
  pieces <> [] ->
  Forall (fun piece => has_char sep piece = false) pieces ->
  split sep (join sep pieces) = pieces.
Proof.
  induction pieces as [|p rest IH]; [congruence|].
  intros _ Hall. inversion Hall as [|? ? Hp Hrest]; subst.
  destruct rest as [|q rest].
  - clear IH Hall Hrest. simpl.
    induction p as [|c p IHp]; simpl in *; [reflexivity|].
    apply orb_false_iff in Hp as [Hc Hp].
    rewrite Hc, (IHp Hp). reflexivity.
  - assert (IH' : split sep (join sep (q :: rest)) = q :: rest)
      by (apply IH; [discriminate | exact Hrest]).
    change (join sep (p :: q :: rest)) with
      (p ++ String sep (join sep (q :: rest)))%string.
    clear IH Hall Hrest.
    induction p as [|c p IHp]; cbn [append].
    + cbn [split]. rewrite Ascii.eqb_refl. now rewrite IH'.
    + simpl in Hp. apply orb_false_iff in Hp as [Hc Hp].
      cbn [split]. rewrite Hc, (IHp Hp). reflexivity.
Qed.

Lemma has_char_lower_LF (s : string) :
  has_char LF (lower s) = has_char LF s.
Proof.
  induction s as [|c s IH]; simpl; [reflexivity|].
  now rewrite lower_char_LF, IH.
Qed.

Lemma has_char_lstrip (c : ascii) (s : string) :
  has_char c s = false -> has_char c (lstrip s) = false.
Proof.
  induction s as [|d s IH]; simpl; [reflexivity|].
  intros H. apply orb_false_iff in H as [Hd Hs].
  destruct (isspace d); [auto | simpl; now rewrite Hd, Hs].
Qed.

Lemma has_char_rstrip (c : ascii) (s : string) :
  has_char c s = false -> has_char c (rstrip s) = false.
Proof.
  induction s as [|d s IH]; simpl; [reflexivity|].
  intros H. apply orb_false_iff in H as [Hd Hs].
  specialize (IH Hs).
  destruct (rstrip s) as [|e r].
  - destruct (isspace d); simpl; [reflexivity | now rewrite Hd].
  - simpl in *. now rewrite Hd, IH.
Qed.

Lemma has_char_strip (c : ascii) (s : string) :
  has_char c s = false -> has_char c (strip s) = false.
Proof. intros H. now apply has_char_rstrip, has_char_lstrip. Qed.

End SplitFacts.

(** ** The eligible names of a list *)

Module NamesFacts.
Import PyStr PyStrFacts SplitFacts.

(** The guard [if self.names] changes nothing: the empty text has one
    line, which is blank. *)
Lemma get_eligible_names_unfold (self : RegisteredVoter) :
  get_eligible_names self =
  map (fun name => lower (strip name))
      (filter (fun name => truthy (strip name)) (split LF (names self))).
Proof.
  unfold get_eligible_names.
  destruct (names self) as [|c s]; reflexivity.
Qed.

Lemma In_get_eligible_names (self : RegisteredVoter) (n : string) :
  In n (get_eligible_names self) <->
  exists line, In line (split LF (names self)) /\
               strip line <> "" /\ n = lower (strip line).
Proof.
  rewrite get_eligible_names_unfold, in_map_iff. split.
  - intros (line & <- & Hin). apply filter_In in Hin as [Hin Ht].
    exists line. repeat split; trivial. now apply truthy_true_iff.
  - intros (line & Hin & Hne & ->). exists line. split; [reflexivity|].
    apply filter_In. split; [exact Hin | now apply truthy_true_iff].
Qed.

Lemma eligible_name_not_empty (self : RegisteredVoter) (n : string) :
  In n (get_eligible_names self) -> n <> "".
Proof.
  intros H. apply In_get_eligible_names in H as (line & _ & Hne & ->).
  intros E. now apply lower_empty_inv in E.
Qed.

Lemma eligible_name_normal (self : RegisteredVoter) (n : string) :
  In n (get_eligible_names self) ->
  lower (strip n) = n /\ strip (lower n) = n.
Proof.
  intros H. apply In_get_eligible_names in H as (line & _ & _ & ->).
  rewrite strip_lower_strip, lower_idem. split; [reflexivity|].
  apply strip_lower_strip.
Qed.

Lemma eligible_name_no_LF (self : RegisteredVoter) (n : string) :
  In n (get_eligible_names self) -> has_char LF n = false.
Proof.
  intros H. apply In_get_eligible_names in H as (line & Hin & _ & ->).
  rewrite has_char_lower_LF. apply has_char_strip.
  pose proof (split_no_sep LF (names self)) as Hall.
  rewrite Forall_forall in Hall. now apply Hall.
Qed.

(** A text of white space only is trimmed to nothing, and conversely. *)
Lemma lstrip_empty_iff (s : string) : lstrip s = "" <-> all_space s = true.
Proof.
  induction s as [|c s IH]; simpl; [tauto|].
  destruct (isspace c); simpl; [exact IH|]. split; discriminate.
Qed.

Lemma rstrip_empty_iff (s : string) : rstrip s = "" <-> all_space s = true.
Proof.
  induction s as [|c s IH]; simpl; [tauto|].
  destruct (rstrip s) as [|d r].
  - destruct (isspace c); simpl.
    + rewrite <- IH. tauto.
    + split; discriminate.
  - split; [discriminate|]. intros H.
    apply andb_true_iff in H as [_ H]. now apply IH in H.
Qed.

Lemma strip_empty_iff (s : string) : strip s = "" <-> all_space s = true.
Proof.
  unfold strip. split.
  - intros H. destruct (lstrip s) as [|c r] eqn:E.
    + now apply lstrip_empty_iff.
    + pose proof (lstrip_head _ _ _ E) as Hc.
      rewrite (rstrip_nonspace _ _ Hc) in H. discriminate.
  - intros H. apply lstrip_empty_iff in H. now rewrite H.
Qed.

Lemma all_space_lower (s : string) : all_space (lower s) = all_space s.
Proof.
  induction s as [|c s IH]; simpl; [reflexivity|].
  now rewrite isspace_lower_char, IH.
Qed.

(** Deriving the names again from the names derived, one on each line,
    changes nothing. *)
Lemma get_eligible_names_fixed (k : Z) (xs : list string) :
  Forall (fun x => x <> "" /\ has_char LF x = false /\
                   strip x = x /\ lower x = x) xs ->
  get_eligible_names (mkRegisteredVoter k (join LF xs)) = xs.
Proof.
  intros Hall. destruct xs as [|x xs]; [reflexivity|].
  rewrite get_eligible_names_unfold. cbn [names].
  rewrite split_join; [|discriminate|].
  - induction Hall as [|y ys (Hne & _ & Hs & Hl) _ IH]; [reflexivity|].
    cbn [filter map]. rewrite Hs.
    apply truthy_true_iff in Hne. rewrite Hne. cbn [map].
    now rewrite Hs, Hl, IH.
  - eapply Forall_impl; [|exact Hall]. now intros y (_ & H & _).
Qed.

End NamesFacts.

(** ** The scan of the lists *)

Module ScanFacts.
Import PyStr PyStrFacts SplitFacts NamesFacts.

Lemma loop_Some (lists : list RegisteredVoter) (fullname : string)
  (v : RegisteredVoter) :
  is_eligible_voter_loop lists fullname = Some v <->
  exists before after,
    lists = before ++ v :: after /\
    name_in_list fullname v = true /\
    forall u, In u before -> name_in_list fullname u = false.
Proof.
  induction lists as [|w rest IH]; simpl.
  - split; [discriminate|]. intros ([|? ?] & ? & H & _); discriminate.
  - destruct (name_in_list fullname w) eqn:E.
    + split.
      * intros [= <-]. exists [], rest. simpl. tauto.
      * intros ([|b before] & after & Heq & Hv & Hb).
        -- now injection Heq as ->.
        -- injection Heq as -> _.
           rewrite (Hb b (or_introl eq_refl)) in E. discriminate.
    + rewrite IH. split.
      * intros (before & after & -> & Hv & Hb).
        exists (w :: before), after. simpl. repeat split; trivial.
        intros u [<-|Hu]; auto.
      * intros ([|b before] & after & Heq & Hv & Hb).
        -- injection Heq as -> _. congruence.
        -- injection Heq as -> ->. exists before, after.
           repeat split; trivial. intros u Hu. apply Hb. now right.
Qed.

Lemma loop_None (lists : list RegisteredVoter) (fullname : string) :
  is_eligible_voter_loop lists fullname = None <->
  forall u, In u lists -> name_in_list fullname u = false.
Proof.
  induction lists as [|w rest IH]; simpl.
  - split; [intros _ u [] | reflexivity].
  - destruct (name_in_list fullname w) eqn:E.
    + split; [discriminate|]. intros H.
      rewrite (H w (or_introl eq_refl)) in E. discriminate.
    + rewrite IH. split.
      * intros H u [<-|Hu]; auto.
      * intros H u Hu. apply H. now right.
Qed.

Lemma name_in_list_true (fullname : string) (l : RegisteredVoter) :
  name_in_list fullname l = true <->
  In (strip (lower fullname)) (get_eligible_names l).
Proof. apply contains_In. Qed.

Lemma name_in_list_false (fullname : string) (l : RegisteredVoter) :
  name_in_list fullname l = false <->
  ~ In (strip (lower fullname)) (get_eligible_names l).
Proof. apply contains_false. Qed.

(** A candidate that is trimmed to nothing is in no list. *)
Lemma blank_in_no_list (fullname : string) (l : RegisteredVoter) :
  strip (lower fullname) = "" -> name_in_list fullname l = false.
Proof.
  intros H. apply name_in_list_false. rewrite H.
  intros Hin. now apply eligible_name_not_empty in Hin.
Qed.

(** The result of the scan, in terms of the names derived. *)
Lemma is_eligible_voter_Some (db : Store) (fullname : string)
  (v : RegisteredVoter) :
  is_eligible_voter db fullname = Some v <->
  exists before after,
    registered_voters db = before ++ v :: after /\
    In (lower (strip fullname)) (get_eligible_names v) /\
    forall u, In u before ->
              ~ In (lower (strip fullname)) (get_eligible_names u).
Proof.
  rewrite lower_strip. unfold is_eligible_voter. rewrite loop_Some.
  split; intros (before & after & Heq & Hv & Hb);
    exists before, after; repeat split; trivial.
  - now apply name_in_list_true.
  - intros u Hu. apply name_in_list_false. auto.
  - now apply name_in_list_true.
  - intros u Hu. apply name_in_list_false. auto.
Qed.

Lemma is_eligible_voter_None (db : Store) (fullname : string) :
  is_eligible_voter db fullname = None <->
  forall u, In u (registered_voters db) ->
            ~ In (lower (strip fullname)) (get_eligible_names u).
Proof.
  rewrite lower_strip. unfold is_eligible_voter. rewrite loop_None.
  split; intros H u Hu; apply name_in_list_false; auto.
Qed.

End ScanFacts.

(** ** Trimming and lower-casing over any code points *)

Module PyUnicodeFacts.
Import PyUnicode.

Section Commute.

Variable T : tables.
Hypothesis HT : whitespace_uncased T.

Lemma u_lower_at_space (b : bool) (c : N) (r : list N) :
  isspace T c = true -> lower_at T b c r = [c].
Proof.
  intros Hc. unfold lower_at.
  destruct (N.eqb_spec c CAPITAL_SIGMA) as [->|_].
  - rewrite (sigma_capital T HT) in Hc. discriminate.
  - now apply (space_lower T HT).
Qed.

Lemma u_lower_at_nonspace (b : bool) (c : N) (r : list N) :
  isspace T c = false ->
  lower_at T b c r <> [] /\
  Forall (fun d => isspace T d = false) (lower_at T b c r).
Proof.
  intros Hc. unfold lower_at. destruct (c =? CAPITAL_SIGMA)%N.
  - split; [discriminate|]. constructor; [|constructor].
    destruct (b && no_cased_ahead T r);
      [apply (sigma_final T HT) | apply (sigma_small T HT)].
  - now apply (nonspace_lower T HT).
Qed.

Lemma u_lower_at_not_empty (b : bool) (c : N) (r : list N) :
  lower_at T b c r <> [].
Proof.
  destruct (isspace T c) eqn:Hc.
  - rewrite (u_lower_at_space b c r Hc). discriminate.
  - now apply u_lower_at_nonspace.
Qed.

Lemma u_lower_from_not_empty (b : bool) (s : list N) :
  s <> [] -> lower_from T b s <> [].
Proof.
  destruct s as [|c r]; [congruence|]. intros _ H. cbn [lower_from] in H.
  apply app_eq_nil in H as [H _]. now apply u_lower_at_not_empty in H.
Qed.

Lemma u_lstrip_app_nonspace (m x : list N) :
  m <> [] -> Forall (fun d => isspace T d = false) m ->
  lstrip T (m ++ x) = m ++ x.
Proof.
  destruct m as [|d m]; [congruence|]. intros _ H.
  inversion H as [|? ? Hd _]; subst. cbn. now rewrite Hd.
Qed.

Lemma u_rstrip_nonspace (m : list N) :
  Forall (fun d => isspace T d = false) m -> rstrip T m = m.
Proof.
  induction 1 as [|d m Hd _ IH]; [reflexivity|].
  cbn [rstrip]. rewrite IH, Hd. now destruct m.
Qed.

Lemma u_rstrip_app (m x : list N) :
  rstrip T (m ++ x) =
  match rstrip T x with
  | [] => rstrip T m
  | y => m ++ y
  end.
Proof.
  induction m as [|c m IH]; cbn [app rstrip].
  - now destruct (rstrip T x).
  - rewrite IH. destruct (rstrip T x) as [|y ys]; [reflexivity|].
    now destruct m.
Qed.

(** A text of white space only is its own lower case, and no cased
    code point is ahead of what precedes it. *)
Lemma u_all_space_lower (b : bool) (r : list N) :
  rstrip T r = [] -> lower_from T b r = r /\ no_cased_ahead T r = true.
Proof.
  revert b. induction r as [|c r IH]; intros b; [now split|].
  cbn [rstrip]. destruct (rstrip T r) as [|y ys] eqn:E; [|discriminate].
  destruct (isspace T c) eqn:Hc; [intros _ | discriminate].
  cbn [lower_from no_cased_ahead].
  rewrite (u_lower_at_space b c r Hc), (space_ignorable T HT c Hc),
    (space_cased T HT c Hc).
  split; [|reflexivity]. cbn [app]. f_equal. now apply IH.
Qed.

Lemma u_no_cased_ahead_rstrip (r : list N) :
  no_cased_ahead T (rstrip T r) = no_cased_ahead T r.
Proof.
  induction r as [|c r IH]; [reflexivity|]. cbn [rstrip].
  destruct (rstrip T r) as [|y ys] eqn:E.
  - destruct (u_all_space_lower false r E) as [_ Hr].
    destruct (isspace T c) eqn:Hc; cbn [no_cased_ahead].
    + now rewrite (space_ignorable T HT c Hc), (space_cased T HT c Hc).
    + now rewrite Hr.
  - cbn [no_cased_ahead] in *. now rewrite IH.
Qed.

Lemma u_lower_at_rstrip (b : bool) (c : N) (r : list N) :
  lower_at T b c (rstrip T r) = lower_at T b c r.
Proof. unfold lower_at. now rewrite u_no_cased_ahead_rstrip. Qed.

Lemma u_lower_lstrip (s : list N) :
  lower_from T false (lstrip T s) = lstrip T (lower_from T false s).
Proof.
  induction s as [|c r IH]; [reflexivity|]. cbn [lstrip].
  destruct (isspace T c) eqn:Hc.
  - cbn [lower_from].
    rewrite (u_lower_at_space false c r Hc), (space_ignorable T HT c Hc),
      (space_cased T HT c Hc).
    cbn [app lstrip]. now rewrite Hc.
  - cbn [lower_from].
    destruct (u_lower_at_nonspace false c r Hc) as [Hne Hall].
    now rewrite u_lstrip_app_nonspace.
Qed.

Lemma u_lower_rstrip (b : bool) (s : list N) :
  lower_from T b (rstrip T s) = rstrip T (lower_from T b s).
Proof.
  revert b. induction s as [|c r IH]; intros b; [reflexivity|].
  cbn [lower_from]. rewrite u_rstrip_app, <- IH.
  rewrite <- (u_lower_at_rstrip b c r).
  cbn [rstrip].
  destruct (rstrip T r) as [|y ys] eqn:E.
  - cbn [lower_from]. destruct (isspace T c) eqn:Hc.
    + rewrite (u_lower_at_space b c [] Hc). cbn [rstrip]. now rewrite Hc.
    + cbn [lower_from]. rewrite app_nil_r.
      symmetry. apply u_rstrip_nonspace.
      now apply u_lower_at_nonspace.
  - pose proof (u_lower_from_not_empty
                  (if is_case_ignorable T c then b else is_cased T c)
                  (y :: ys)) as Hne.
    change (lower_from T b (c :: y :: ys)) with
      (lower_at T b c (y :: ys)
       ++ lower_from T (if is_case_ignorable T c then b else is_cased T c)
            (y :: ys)).
    destruct (lower_from T (if is_case_ignorable T c then b else is_cased T c)
                (y :: ys)) as [|z zs] eqn:E2.
    + exfalso. apply Hne; [discriminate | reflexivity].
    + reflexivity.
Qed.

(** For tables that treat white space as the Unicode database does,
    trimming and lower-casing commute on every text: multi-code-point
    mappings and the final sigma included. *)
Lemma u_lower_strip (s : list N) :
  strip T (lower T s) = lower T (strip T s).
Proof.
  unfold strip, lower. now rewrite <- u_lower_lstrip, <- u_lower_rstrip.
Qed.

End Commute.

Lemma u_isspace_fixed_by_lower_char (a : ascii) :
  PyStr.isspace a = true -> PyStr.lower_char a = a.
Proof. destruct a as [[] [] [] [] [] [] [] []]; intros H; try reflexivity; discriminate. Qed.

Lemma u_latin1_tables_whitespace : whitespace_uncased latin1_tables.
Proof.
  constructor; cbn [latin1_tables isspace lower_full is_cased
                    is_case_ignorable]; try reflexivity.
  - intros c H. apply andb_true_iff in H as [Hlt Hs]. rewrite Hlt.
    rewrite (u_isspace_fixed_by_lower_char _ Hs). f_equal.
    apply N_ascii_embedding. now apply N.ltb_lt.
  - intros c H. destruct (c <? 256)%N eqn:Hlt.
    + split; [discriminate|]. constructor; [|constructor].
      cbn [andb] in H. rewrite ascii_N_embedding.
      rewrite PyStrFacts.isspace_lower_char, H. apply andb_false_r.
    + split; [discriminate|]. constructor; [|constructor].
      now rewrite Hlt.
Qed.

Lemma u_lower_strip_latin1 (s : list N) :
  strip latin1_tables (lower latin1_tables s)
  = lower latin1_tables (strip latin1_tables s).
Proof. apply u_lower_strip, u_latin1_tables_whitespace. Qed.

(** " AΣ' " has a final sigma with and without the spaces around it,
    "ΣA" has none, and the dotted capital I becomes two code points. *)
Example u_lower_final_sigma :
  lower sample_tables [32; 65; 931; 39; 32]%N = [32; 97; 962; 39; 32]%N /\
  strip sample_tables (lower sample_tables [32; 65; 931; 39; 32]%N)
  = [97; 962; 39]%N /\
  lower sample_tables (strip sample_tables [32; 65; 931; 39; 32]%N)
  = [97; 962; 39]%N /\
  lower sample_tables [931; 65]%N = [963; 97]%N /\
  lower sample_tables [304; 32]%N = [105; 775; 32]%N.
Proof. repeat split; reflexivity. Qed.

End PyUnicodeFacts.

(** ** The properties of the eligibility core *)

Import PyStr PyStrFacts SplitFacts NamesFacts ScanFacts.

(** C6.  One normalisation, trimming and lower-casing, is applied to
    the candidate and to every stored line before they are compared.
    The candidate's [fullname.lower().strip()] and a line's
    [name.strip().lower()] are the same function of the text,
    [normalize]; [get_eligible_names] holds the [normalize]d lines that
    are not blank; and the test of [is_eligible_voter] looks the
    [normalize]d candidate up among them, so that it holds exactly when
    candidate and some such line have the same normal form.
    (On texts of any code points the two orders agree as well:
    [PyUnicodeFacts.u_lower_strip].) *)
Theorem candidate_and_entry_normalised_alike :
  (forall s, strip (lower s) = normalize s /\ lower (strip s) = normalize s) /\
  (forall voter_list,
     get_eligible_names voter_list =
     map normalize
         (filter (fun line => negb (all_space line))
                 (split LF (names voter_list)))) /\
  (forall fullname voter_list,
     name_in_list fullname voter_list =
     contains (normalize fullname) (get_eligible_names voter_list)) /\
  (forall fullname voter_list,
     name_in_list fullname voter_list = true <->
     exists line, In line (split LF (names voter_list)) /\
                  all_space line = false /\
                  normalize fullname = normalize line).
Proof.
  assert (Hn : forall s, strip (lower s) = normalize s).
  { intros s. unfold normalize. symmetry. apply lower_strip. }
  assert (Hb : forall line, truthy (strip line) = negb (all_space line)).
  { intros line. destruct (all_space line) eqn:E.
    - apply strip_empty_iff in E. now rewrite E.
    - apply truthy_true_iff. intros H. apply strip_empty_iff in H.
      congruence. }
  split; [|split; [|split]].
  - intros s. split; [apply Hn | reflexivity].
  - intros voter_list. rewrite get_eligible_names_unfold.
    unfold normalize. f_equal. apply filter_ext, Hb.
  - intros fullname voter_list. unfold name_in_list. cbv zeta.
    now rewrite Hn.
  - intros fullname voter_list.
    rewrite name_in_list_true, Hn, In_get_eligible_names.
    split; intros (line & Hin & Hl & Heq); exists line;
      repeat split; trivial.
    + destruct (all_space line) eqn:E; [|reflexivity].
      apply strip_empty_iff in E. contradiction.
    + intros H. apply strip_empty_iff in H. congruence.
Qed.

(** C4, as the specification words it, asks for a set in which repeated
    names collapse.  [get_eligible_names] returns a Python list: for the
    text ["a\na"] it has two entries, both ["a"]. *)
Lemma get_eligible_names_keeps_duplicates :
  get_eligible_names list_twice = ["a"; "a"] /\
  ~ NoDup (get_eligible_names list_twice).
Proof.
  split; [reflexivity|].
  change (get_eligible_names list_twice) with ["a"; "a"].
  intros H. inversion H as [|? ? Hn _]; subst. apply Hn. now left.
Qed.

(** C4, amended.  [get_eligible_names] splits the text at the line feeds
    (joining the lines by line feeds gives the text back, and no line
    holds a line feed), drops the lines that are empty once trimmed, and
    returns the others trimmed and lower-cased, as a list in the order of
    the lines, a repeated name once for each of its lines.  A name
    belongs to the list exactly when it is the trimmed, lower-cased form
    of a line that is not blank; a blank line contributes nothing. *)
Theorem get_eligible_names_lines (self : RegisteredVoter) :
  join LF (split LF (names self)) = names self /\
  Forall (fun line => has_char LF line = false) (split LF (names self)) /\
  get_eligible_names self =
    map (fun line => lower (strip line))
        (filter (fun line => negb (all_space line))
                (split LF (names self))) /\
  (forall n, In n (get_eligible_names self) <->
     exists line, In line (split LF (names self)) /\
                  all_space line = false /\ n = lower (strip line)) /\
  List.length (get_eligible_names self) =
    List.length (filter (fun line => negb (all_space line))
                   (split LF (names self))).
Proof.
  assert (Hf : forall line, truthy (strip line) = negb (all_space line)).
  { intros line. destruct (all_space line) eqn:E.
    - apply strip_empty_iff in E. now rewrite E.
    - apply truthy_true_iff. intros H. apply strip_empty_iff in H.
      congruence. }
  assert (Heq : get_eligible_names self =
    map (fun line => lower (strip line))
        (filter (fun line => negb (all_space line))
                (split LF (names self)))).
  { rewrite get_eligible_names_unfold. f_equal.
    apply filter_ext. exact Hf. }
  split; [apply join_split|].
  split; [apply split_no_sep|].
  split; [exact Heq|].
  split.
  - intros n. rewrite In_get_eligible_names.
    split; intros (line & Hin & Hb & ->); exists line;
      repeat split; trivial.
    + destruct (all_space line) eqn:E; [|reflexivity].
      apply strip_empty_iff in E. contradiction.
    + intros H. apply strip_empty_iff in H. congruence.
  - rewrite Heq. apply List.length_map.
Qed.

(** C7.  The text ["John Smith\nJane Doe\n\n  Michael Johnson  \n"]
    yields the names ["john smith"], ["jane doe"] and
    ["michael johnson"] and no other; the candidate [" john SMITH "] is
    found in that list and the candidate ["Jon Smith"] is not. *)
Theorem sample_list_names :
  get_eligible_names sample_list =
    ["john smith"; "jane doe"; "michael johnson"] /\
  name_in_list " john SMITH " sample_list = true /\
  is_eligible_voter (mkStore [sample_list] []) " john SMITH "
    = Some sample_list /\
  name_in_list "Jon Smith" sample_list = false /\
  is_eligible_voter (mkStore [sample_list] []) "Jon Smith" = None.
Proof. repeat split; reflexivity. Qed.

(** C10.  Every name [get_eligible_names] returns is a non-empty text
    that trimming and lower-casing, in either order, leave as it is; and
    a candidate that is empty or made of white space only is matched by
    no list, whatever the lists hold. *)
Theorem eligible_names_normal_and_blank_unmatched :
  (forall (self : RegisteredVoter) (n : string),
     In n (get_eligible_names self) ->
     n <> "" /\ lower (strip n) = n /\ strip (lower n) = n) /\
  (forall (db : Store) (candidate : string),
     all_space candidate = true ->
     is_eligible_voter db candidate = None).
Proof.
  split.
  - intros self n Hin. split.
    + now apply eligible_name_not_empty in Hin.
    + now apply eligible_name_normal in Hin.
  - intros db candidate Hs. apply loop_None. intros u _.
    apply blank_in_no_list. apply strip_empty_iff.
    now rewrite all_space_lower.
Qed.

Lemma eligible_names_normal_and_blank_unmatched_witness :
  ("bob" <> "" /\ lower (strip "bob") = "bob" /\ strip (lower "bob") = "bob")
  /\ is_eligible_voter (mkStore [list_blank] []) "   " = None.
Proof.
  destruct eligible_names_normal_and_blank_unmatched as [Hn Hb].
  split.
  - apply (Hn list_blank "bob"). vm_compute. right. left. reflexivity.
  - apply (Hb (mkStore [list_blank] []) "   "). reflexivity.
Defined.

(** C1.  [is_eligible_voter] normalises the candidate and visits the
    lists in the order of retrieval: it returns a list exactly when that
    list holds the normalised candidate and no list before it does, and
    it returns [None] exactly when no list holds it.  With list A
    holding "Alice" and list B holding "Bob", the query "bob" returns B
    (the row whose key is 2) and the query "carol" returns [None]. *)
Theorem is_eligible_voter_first_match (db : Store) (fullname : string) :
  let candidate := lower (strip fullname) in
  (forall v, is_eligible_voter db fullname = Some v <->
     exists before after,
       registered_voters db = before ++ v :: after /\
       In candidate (get_eligible_names v) /\
       forall u, In u before -> ~ In candidate (get_eligible_names u)) /\
  (is_eligible_voter db fullname = None <->
     forall u, In u (registered_voters db) ->
               ~ In candidate (get_eligible_names u)) /\
  is_eligible_voter db_AB "bob" = Some list_B /\
  option_map pk (is_eligible_voter db_AB "bob") = Some 2%Z /\
  is_eligible_voter db_AB "carol" = None.
Proof.
  cbv zeta. split; [|split; [|repeat split; reflexivity]].
  - intros v. apply is_eligible_voter_Some.
  - apply is_eligible_voter_None.
Qed.

(** C5.  The test made on one list, [name_in_list], holds exactly when
    the candidate, trimmed and lower-cased, is among the names derived
    from the list, whatever the list; that is, exactly when some line of
    the list's text that is not blank agrees with the candidate once
    both are trimmed and lower-cased.  So a name that appears as such a
    line is found, whatever the white space around and the letter case
    of the stored line or of the query. *)
Theorem name_in_list_regardless_of_case_and_space
  (candidate : string) (voter_list : RegisteredVoter) :
  (name_in_list candidate voter_list = true <->
   In (lower (strip candidate)) (get_eligible_names voter_list)) /\
  (name_in_list candidate voter_list = true <->
   exists line, In line (split LF (names voter_list)) /\
                strip line <> "" /\
                lower (strip line) = lower (strip candidate)) /\
  (forall line, In line (split LF (names voter_list)) ->
                strip line <> "" ->
                lower (strip line) = lower (strip candidate) ->
                name_in_list candidate voter_list = true) /\
  (In (lower (strip candidate)) (split LF (names voter_list)) ->
   lower (strip candidate) <> "" ->
   name_in_list candidate voter_list = true).
Proof.
  assert (H1 : name_in_list candidate voter_list = true <->
               In (lower (strip candidate)) (get_eligible_names voter_list)).
  { rewrite lower_strip. apply name_in_list_true. }
  assert (H2 : name_in_list candidate voter_list = true <->
               exists line, In line (split LF (names voter_list)) /\
                            strip line <> "" /\
                            lower (strip line) = lower (strip candidate)).
  { rewrite H1, In_get_eligible_names.
    split; intros (line & Hin & Hne & Heq); exists line; auto. }
  split; [exact H1|]. split; [exact H2|]. split.
  - intros line Hin Hne Heq. apply H2. exists line. auto.
  - intros Hin Hne. apply H2. exists (lower (strip candidate)).
    split; [exact Hin|].
    rewrite strip_lower_strip, lower_idem. auto.
Qed.

Lemma name_in_list_regardless_of_case_and_space_witness :
  name_in_list " john SMITH " sample_list = true.
Proof.
  apply (proj1 (proj2 (proj2 (name_in_list_regardless_of_case_and_space
                                " john SMITH " sample_list)))
           "John Smith").
  - vm_compute. left. reflexivity.
  - vm_compute. discriminate.
  - reflexivity.
Defined.

(** C8.  The names derived depend on the text alone: two lists with the
    same text give the same names, so deriving twice from one text gives
    what deriving once gives.  Deriving again from the names derived,
    written one on each line, gives them back as well. *)
Theorem get_eligible_names_deterministic (l1 l2 : RegisteredVoter) :
  names l1 = names l2 ->
  get_eligible_names l1 = get_eligible_names l2 /\
  get_eligible_names
    (mkRegisteredVoter (pk l2) (join LF (get_eligible_names l1)))
  = get_eligible_names l1.
Proof.
  intros Heq. split.
  - unfold get_eligible_names. now rewrite Heq.
  - apply get_eligible_names_fixed. apply Forall_forall. intros x Hx.
    pose proof (eligible_name_normal _ _ Hx) as [Hls Hsl].
    repeat split.
    + now apply eligible_name_not_empty in Hx.
    + now apply eligible_name_no_LF in Hx.
    + apply In_get_eligible_names in Hx as (line & _ & _ & ->).
      apply strip_lower_strip.
    + apply In_get_eligible_names in Hx as (line & _ & _ & ->).
      apply lower_idem.
Qed.

Lemma get_eligible_names_deterministic_witness :
  get_eligible_names sample_list
  = get_eligible_names (mkRegisteredVoter 7 sample_text) /\
  get_eligible_names
    (mkRegisteredVoter 7 (join LF (get_eligible_names sample_list)))
  = get_eligible_names sample_list.
Proof.
  apply (get_eligible_names_deterministic
           sample_list (mkRegisteredVoter 7 sample_text)).
  reflexivity.
Defined.




(** ** Saving a voter *)

Lemma clean_spec (db : Store) (self : Voter) :
  clean db self =
  match is_eligible_voter db (fullname self) with
  | None => inl (ValidationError not_found_message)
  | Some l => inr (set_registered_list self l)
  end.
Proof. reflexivity. Qed.

(** The form's check raises exactly for a non-empty name that no list
    holds; an empty or absent name is passed on unchecked. *)
Lemma clean_fullname_raises (db : Store) (cleaned : option string) :
  (exists message, clean_fullname db cleaned = inl (ValidationError message))
  <-> exists fullname, cleaned = Some fullname /\ fullname <> "" /\
                       is_eligible_voter db fullname = None.
Proof.
  unfold clean_fullname. destruct cleaned as [fullname|].
  - destruct fullname as [|c s]; cbn [truthy].
    + split; [intros (m & H); discriminate|].
      intros (f & [= <-] & Hne & _). congruence.
    + destruct (is_eligible_voter db (String c s)) eqn:E.
      * split; [intros (m & H); discriminate|].
        intros (f & [= <-] & _ & H). congruence.
      * split; [|intros _; eauto].
        intros _. exists (String c s). repeat split; trivial. discriminate.
  - split; [intros (m & H); discriminate|].
    intros (f & H & _). discriminate.
Qed.

(** C2.  [Voter.save] raises the [ValidationError] of [Voter.clean]
    exactly when no list holds the normalised fullname; the store is then
    the store before the call, whatever the database would have done
    with the row; and the save reaches the database, with a row that
    refers to a list holding the name, only when such a list exists. *)
Theorem save_raises_iff_no_match
  (Model_save : Store -> Voter -> option Store) (db : Store) (self : Voter) :
  let candidate := lower (strip (fullname self)) in
  let no_match :=
    forall u, In u (registered_voters db) ->
              ~ In candidate (get_eligible_names u) in
  ((exists message,
      fst (save Model_save db self) = inl (ValidationError message))
   <-> no_match) /\
  (no_match ->
   save Model_save db self = (inl (ValidationError not_found_message), db)) /\
  (forall self' db', save Model_save db self = (inr self', db') ->
     exists l, In l (registered_voters db) /\
               In candidate (get_eligible_names l) /\
               self' = set_registered_list self l /\
               Model_save db self' = Some db').
Proof.
  cbv zeta.
  pose proof (is_eligible_voter_Some db (fullname self)) as HSome.
  pose proof (is_eligible_voter_None db (fullname self)) as HNone.
  unfold save. rewrite clean_spec.
  destruct (is_eligible_voter db (fullname self)) as [l|] eqn:E.
  - destruct (proj1 (HSome l) eq_refl) as (before & after & Hdb & Hl & _).
    assert (Hin : In l (registered_voters db))
      by (rewrite Hdb; apply in_or_app; right; now left).
    split; [split|split].
    + intros (m & H).
      destruct (Model_save db (set_registered_list self l)); discriminate.
    + intros H. exfalso. exact (H l Hin Hl).
    + intros H. exfalso. exact (H l Hin Hl).
    + intros self' db' H. exists l.
      destruct (Model_save db (set_registered_list self l)) eqn:EM;
        [|discriminate].
      injection H as <- <-. auto.
  - split; [split|split].
    + intros _. now apply HNone.
    + intros _. now exists not_found_message.
    + reflexivity.
    + intros self' db' H. discriminate.
Qed.

Lemma save_raises_iff_no_match_witness :
  save append_row db_AB voter_carol
  = (inl (ValidationError not_found_message), db_AB).
Proof.
  apply (proj1 (proj2 (save_raises_iff_no_match append_row db_AB voter_carol))).
  intros u [<-|[<-|[]]] [H|[]]; discriminate.
Defined.

(** C3.  When some list holds the normalised fullname, there is a first
    such list in the order of retrieval; a save the database accepts
    succeeds, and every successful save leaves the record with a
    reference that is not null and is that first list, whatever
    reference the caller had put in the record; the other fields are as
    the caller gave them. *)
Theorem save_assigns_first_match
  (Model_save : Store -> Voter -> option Store) (db : Store) (self : Voter) :
  let candidate := lower (strip (fullname self)) in
  (exists u, In u (registered_voters db) /\
             In candidate (get_eligible_names u)) ->
  exists l before after,
    registered_voters db = before ++ l :: after /\
    In candidate (get_eligible_names l) /\
    (forall u, In u before -> ~ In candidate (get_eligible_names u)) /\
    (forall db', Model_save db (set_registered_list self l) = Some db' ->
       save Model_save db self = (inr (set_registered_list self l), db')) /\
    (forall self' db', save Model_save db self = (inr self', db') ->
       registered_list self' = Some l /\
       fullname self' = fullname self /\ email self' = email self /\
       telephone self' = telephone self /\
       student_id self' = student_id self /\
       Model_save db self' = Some db').
Proof.
  cbv zeta. intros (u & Hu & Hin).
  pose proof (is_eligible_voter_Some db (fullname self)) as HSome.
  pose proof (is_eligible_voter_None db (fullname self)) as HNone.
  destruct (is_eligible_voter db (fullname self)) as [l|] eqn:E.
  - destruct (proj1 (HSome l) eq_refl) as (before & after & Hdb & Hl & Hb).
    exists l, before, after.
    split; [exact Hdb|]. split; [exact Hl|]. split; [exact Hb|]. split.
    + intros db' HM. unfold save. now rewrite clean_spec, E, HM.
    + intros self' db' H. unfold save in H. rewrite clean_spec, E in H.
      destruct (Model_save db (set_registered_list self l)) eqn:EM;
        [|discriminate].
      injection H as <- <-. repeat split; trivial.
  - exfalso. exact (proj1 HNone eq_refl u Hu Hin).
Qed.

Lemma save_assigns_first_match_witness :
  exists l before after,
    registered_voters db_AB = before ++ l :: after /\
    In "bob" (get_eligible_names l) /\
    (forall u, In u before -> ~ In "bob" (get_eligible_names u)) /\
    (forall db', append_row db_AB (set_registered_list voter_bob_with_A l)
                 = Some db' ->
       save append_row db_AB voter_bob_with_A
       = (inr (set_registered_list voter_bob_with_A l), db')) /\
    (forall self' db',
       save append_row db_AB voter_bob_with_A = (inr self', db') ->
       registered_list self' = Some l /\
       fullname self' = fullname voter_bob_with_A /\
       email self' = email voter_bob_with_A /\
       telephone self' = telephone voter_bob_with_A /\
       student_id self' = student_id voter_bob_with_A /\
       append_row db_AB self' = Some db').
Proof.
  apply (save_assigns_first_match append_row db_AB voter_bob_with_A).
  exists list_B. split; [right; left; reflexivity | left; reflexivity].
Defined.

(** The record of the sample is saved with a reference to list B,
    although its caller had set list A. *)
Example save_voter_bob_with_A :
  save append_row db_AB voter_bob_with_A
  = (inr (set_registered_list voter_bob_with_A list_B),
     mkStore [list_A; list_B] [set_registered_list voter_bob_with_A list_B]).
Proof. reflexivity. Qed.

Example save_voter_bob :
  option_map pk
    (match fst (save append_row db_AB voter_bob) with
     | inr v => registered_list v
     | inl _ => None
     end) = Some 2%Z.
Proof. reflexivity. Qed.

(** ** The admin views *)

Module AdminFacts.
Import PyStr PyStrFacts SplitFacts NamesFacts ScanFacts.

Lemma get_eligible_names_stripped (obj : RegisteredVoter) :
  get_eligible_names obj = map lower (stripped_names (names obj)).
Proof.
  rewrite get_eligible_names_unfold. unfold stripped_names.
  now rewrite map_map.
Qed.

Lemma truthy_names_of_member (l : RegisteredVoter) (n : string) :
  In n (get_eligible_names l) -> truthy (names l) = true.
Proof.
  unfold get_eligible_names. destruct (truthy (names l)); [reflexivity|].
  intros [].
Qed.

(** Trimming never lengthens a text, and a text it does not shorten is
    left as it is. *)
Lemma length_lstrip (s : string) :
  String.length (lstrip s) <= String.length s.
Proof.
  induction s as [|c s IH]; simpl; [lia|].
  destruct (isspace c); simpl; lia.
Qed.

Lemma lstrip_same_length (s : string) :
  String.length (lstrip s) = String.length s -> lstrip s = s.
Proof.
  destruct s as [|c s]; simpl; [reflexivity|].
  destruct (isspace c); [|reflexivity].
  pose proof (length_lstrip s). lia.
Qed.

Lemma length_rstrip (s : string) :
  String.length (rstrip s) <= String.length s.
Proof.
  induction s as [|c s IH]; simpl; [lia|].
  destruct (rstrip s) as [|d r].
  - destruct (isspace c); simpl; lia.
  - simpl in *. lia.
Qed.

Lemma rstrip_same_length (s : string) :
  String.length (rstrip s) = String.length s -> rstrip s = s.
Proof.
  induction s as [|c s IH]; simpl; [reflexivity|].
  destruct (rstrip s) as [|d r] eqn:E.
  - destruct (isspace c); simpl; [discriminate|].
    intros H. destruct s; [reflexivity | discriminate].
  - intros H. rewrite IH; [reflexivity|]. simpl in *. lia.
Qed.

Lemma strip_same_length (s : string) :
  String.length (strip s) = String.length s -> strip s = s.
Proof.
  unfold strip. intros H.
  pose proof (length_lstrip s). pose proof (length_rstrip (lstrip s)).
  assert (Hl : lstrip s = s) by (apply lstrip_same_length; lia).
  rewrite Hl in *. now apply rstrip_same_length.
Qed.

Lemma length_lower (s : string) : String.length (lower s) = String.length s.
Proof. induction s as [|c s IH]; simpl; congruence. Qed.

(** Lower-casing does not change whether a text is trimmed. *)
Lemma strip_lower_fixed (s : string) :
  strip (lower s) = lower s <-> strip s = s.
Proof.
  split; intros H.
  - apply strip_same_length. rewrite <- (length_lower (strip s)).
    rewrite lower_strip, H. apply length_lower.
  - now rewrite <- lower_strip, H.
Qed.

Lemma registration_status_Some (obj : Voter) (l : RegisteredVoter) :
  registered_list obj = Some l -> truthy (names l) = true ->
  registration_status obj =
  if lowered_name_in_list obj l then ValidRegistration else NameNotInList.
Proof.
  intros Hl Ht. unfold registration_status, lowered_name_in_list.
  rewrite Hl, Ht. cbn [negb]. now rewrite get_eligible_names_unfold.
Qed.

(** For a name the eligibility check finds in the list, the admin test
    finds it exactly when the name has no white space around it. *)
Lemma lowered_name_in_list_iff (obj : Voter) (l : RegisteredVoter) :
  name_in_list (fullname obj) l = true ->
  (lowered_name_in_list obj l = true <-> strip (fullname obj) = fullname obj).
Proof.
  intros Hin. apply name_in_list_true in Hin.
  unfold lowered_name_in_list. cbv zeta. rewrite contains_In. split.
  - intros H. apply eligible_name_normal in H as [_ H].
    rewrite lower_idem in H. now apply strip_lower_fixed.
  - intros H. apply strip_lower_fixed in H. now rewrite <- H.
Qed.

Lemma lower_app (s t : string) : lower (s ++ t) = (lower s ++ lower t)%string.
Proof. induction s as [|c s IH]; simpl; congruence. Qed.

Lemma lower_join_str (sep : string) (xs : list string) :
  lower (join_str sep xs) = join_str (lower sep) (map lower xs).
Proof.
  induction xs as [|x xs IH]; [reflexivity|].
  destruct xs as [|y ys]; [reflexivity|].
  change (join_str sep (x :: y :: ys))
    with (x ++ sep ++ join_str sep (y :: ys))%string.
  rewrite !lower_app, IH. reflexivity.
Qed.

Lemma append_empty_r (s : string) : (s ++ "")%string = s.
Proof. induction s as [|c s IH]; simpl; congruence. Qed.

End AdminFacts.

Import AdminFacts.

(** X1.  The form's [clean_fullname] raises its [ValidationError]
    exactly for a name that is not empty and that no list holds once
    trimmed and lower-cased; in every other case it returns the value it
    was given, unchanged: the name is neither trimmed nor lower-cased,
    and an empty or absent name is not checked at all. *)
Theorem clean_fullname_outcome (db : Store) (cleaned : option string) :
  ((exists fullname,
      cleaned = Some fullname /\ fullname <> "" /\
      forall u, In u (registered_voters db) ->
                ~ In (lower (strip fullname)) (get_eligible_names u)) ->
   clean_fullname db cleaned = inl (ValidationError form_not_found_message)) /\
  (forall e, clean_fullname db cleaned = inl e ->
     e = ValidationError form_not_found_message /\
     exists fullname,
       cleaned = Some fullname /\ fullname <> "" /\
       forall u, In u (registered_voters db) ->
                 ~ In (lower (strip fullname)) (get_eligible_names u)) /\
  (forall r, clean_fullname db cleaned = inr r -> r = cleaned).
Proof.
  unfold clean_fullname. destruct cleaned as [fullname|].
  - destruct fullname as [|c s]; cbn [truthy].
    + split; [|split].
      * intros (f & [= <-] & Hne & _). congruence.
      * intros e H. discriminate.
      * now intros r [= <-].
    + pose proof (is_eligible_voter_None db (String c s)) as HNone.
      destruct (is_eligible_voter db (String c s)) eqn:E.
      * split; [|split].
        -- intros (f & [= <-] & _ & H). apply HNone in H. discriminate.
        -- intros e H. discriminate.
        -- now intros r' [= <-].
      * split; [|split].
        -- reflexivity.
        -- intros e [= <-]. split; [reflexivity|].
           exists (String c s). repeat split; [discriminate|].
           now apply HNone.
        -- intros r H. discriminate.
  - split; [|split].
    + intros (f & H & _). discriminate.
    + intros e H. discriminate.
    + now intros r [= <-].
Qed.

Lemma clean_fullname_outcome_witness :
  clean_fullname db_AB (Some "carol")
  = inl (ValidationError form_not_found_message).
Proof.
  apply (proj1 (clean_fullname_outcome db_AB (Some "carol"))).
  exists "carol". repeat split; [discriminate|].
  intros u [<-|[<-|[]]] [H|[]]; discriminate.
Defined.

(** X2.  The form's check and the model's [clean] raise for the same
    names, the empty name apart: for a name that is not empty the form
    raises exactly when [Voter.clean] does, while the empty name passes
    the form's check and is refused by [Voter.clean] whatever the lists
    hold. *)
Theorem form_check_agrees_with_clean (db : Store) (self : Voter) :
  (fullname self <> "" ->
   ((exists e, clean_fullname db (Some (fullname self)) = inl e) <->
    (exists e, clean db self = inl e))) /\
  (fullname self = "" ->
   clean_fullname db (Some (fullname self)) = inr (Some "") /\
   clean db self = inl (ValidationError not_found_message)).
Proof.
  split.
  - intros Hne. unfold clean_fullname, clean.
    apply truthy_true_iff in Hne. rewrite Hne.
    destruct (is_eligible_voter db (fullname self)).
    + split; intros (e & H); discriminate.
    + split; intros _; eauto.
  - intros He. unfold clean_fullname, clean. rewrite He. cbn [truthy].
    split; [reflexivity|].
    assert (H : is_eligible_voter db "" = None).
    { apply loop_None. intros u _. now apply blank_in_no_list. }
    now rewrite H.
Qed.

Lemma form_check_agrees_with_clean_witness :
  ((exists e, clean_fullname db_AB (Some "carol") = inl e) <->
   (exists e, clean db_AB voter_carol = inl e)) /\
  clean db_AB (mkVoter "" "a@b.c" "1" "2" None)
  = inl (ValidationError not_found_message).
Proof.
  split.
  - apply (proj1 (form_check_agrees_with_clean db_AB voter_carol)).
    discriminate.
  - apply (proj2 (form_check_agrees_with_clean db_AB
                    (mkVoter "" "a@b.c" "1" "2" None))).
    reflexivity.
Defined.

(** X3.  [Voter.clean] is idempotent: on a record it has accepted, a
    second call accepts again and changes nothing, so the call the form
    makes before [save] and the call [save] makes itself assign the same
    list. *)
Theorem clean_idempotent (db : Store) (self self' : Voter) :
  clean db self = inr self' -> clean db self' = inr self'.
Proof.
  unfold clean.
  destruct (is_eligible_voter db (fullname self)) as [l|] eqn:E;
    [|discriminate].
  intros [= <-]. cbn [fullname set_registered_list]. now rewrite E.
Qed.

Lemma clean_idempotent_witness :
  clean db_AB (set_registered_list voter_bob_with_A list_B)
  = inr (set_registered_list voter_bob_with_A list_B).
Proof.
  apply (clean_idempotent db_AB voter_bob_with_A). reflexivity.
Defined.

(** ** Lines that end in a carriage return *)

Module CrlfFacts.
Import PyStr PyStrFacts SplitFacts NamesFacts.

Lemma rstrip_app_space (s : string) (c : ascii) :
  isspace c = true -> rstrip (s ++ String c "") = rstrip s.
Proof.
  intros Hc. induction s as [|d s IH]; simpl.
  - now rewrite Hc.
  - now rewrite IH.
Qed.

Lemma lstrip_app_space (s : string) (c : ascii) :
  isspace c = true ->
  lstrip (s ++ String c "") =
  if all_space s then "" else (lstrip s ++ String c "")%string.
Proof.
  intros Hc. induction s as [|d s IH]; simpl.
  - now rewrite Hc.
  - destruct (isspace d); simpl; [exact IH | reflexivity].
Qed.

(** White space added at the end of a text is trimmed away. *)
Lemma strip_app_space (s : string) (c : ascii) :
  isspace c = true -> strip (s ++ String c "") = strip s.
Proof.
  intros Hc. unfold strip. rewrite (lstrip_app_space s c Hc).
  destruct (all_space s) eqn:E.
  - apply lstrip_empty_iff in E. now rewrite E.
  - now apply rstrip_app_space.
Qed.

(** Each line of the text with carriage returns is the line of the
    text without them, or that line with a carriage return at its
    end. *)
Lemma split_with_crlf (s : string) :
  Forall2 (fun a b => a = b \/ a = (b ++ String CR "")%string)
          (split LF (with_crlf s)) (split LF s).
Proof.
  induction s as [|c s IH]; cbn [with_crlf split].
  - constructor; [now left | constructor].
  - destruct (Ascii.eqb c LF) eqn:Ec.
    + cbn [split]. change (Ascii.eqb CR LF) with false. cbv iota.
      rewrite Ec. constructor; [now right | exact IH].
    + cbn [split]. rewrite Ec.
      destruct (split LF (with_crlf s)) as [|p rest];
        destruct (split LF s) as [|p0 rest0]; inversion IH; subst.
      * constructor; [now left | constructor].
      * constructor; [|assumption].
        match goal with H : _ \/ _ |- _ => destruct H as [->| ->] end;
          [now left | now right].
Qed.

Lemma names_of_related_lines (xs ys : list string) :
  Forall2 (fun a b => a = b \/ a = (b ++ String CR "")%string) xs ys ->
  map (fun name => lower (strip name))
      (filter (fun name => truthy (strip name)) xs)
  = map (fun name => lower (strip name))
      (filter (fun name => truthy (strip name)) ys).
Proof.
  induction 1 as [|a b xs ys Hab _ IH]; [reflexivity|].
  assert (Hs : strip a = strip b).
  { destruct Hab as [->| ->]; [reflexivity|].
    now apply strip_app_space. }
  cbn [filter]. rewrite Hs.
  destruct (truthy (strip b)); cbn [map]; now rewrite ?Hs, IH.
Qed.

End CrlfFacts.

Import CrlfFacts.

(** X4.  Carriage returns before the line feeds do not matter: the text
    with every line end written as carriage return and line feed yields
    the same eligible names, in the same order, as the text with bare
    line feeds. *)
Theorem get_eligible_names_ignores_crlf (k : Z) (s : string) :
  get_eligible_names (mkRegisteredVoter k (with_crlf s))
  = get_eligible_names (mkRegisteredVoter k s).
Proof.
  rewrite !get_eligible_names_unfold. cbn [names].
  apply names_of_related_lines, split_with_crlf.
Qed.

(** X5.  The count [voter_count] shows is the number of entries of
    [get_eligible_names], a name on several lines counted once for each
    line; an empty text shows the plain text "0 eligible voters", and a
    text that is not empty but holds blank lines only shows the count 0
    inside the [strong] element. *)
Theorem voter_count_counts_eligible_names (obj : RegisteredVoter) :
  (names obj = "" -> voter_count obj = "0 eligible voters") /\
  (names obj <> "" ->
   voter_count obj =
   ("<strong>" ++ str_of_nat (List.length (get_eligible_names obj))
               ++ "</strong> eligible voters")%string) /\
  (names obj <> "" -> get_eligible_names obj = [] ->
   voter_count obj = "<strong>0</strong> eligible voters").
Proof.
  assert (Hn : names obj <> "" ->
    voter_count obj =
    ("<strong>" ++ str_of_nat (List.length (get_eligible_names obj))
                ++ "</strong> eligible voters")%string).
  { intros Hne. unfold voter_count.
    apply truthy_true_iff in Hne. rewrite Hne. cbv zeta.
    now rewrite get_eligible_names_stripped, List.length_map. }
  split; [|split].
  - intros He. unfold voter_count. now rewrite He.
  - exact Hn.
  - intros Hne He. rewrite (Hn Hne), He. reflexivity.
Qed.

Lemma voter_count_counts_eligible_names_witness :
  voter_count list_twice = "<strong>2</strong> eligible voters" /\
  voter_count list_blank_only = "<strong>0</strong> eligible voters".
Proof.
  split.
  - apply (proj1 (proj2 (voter_count_counts_eligible_names list_twice))).
    discriminate.
  - apply (proj2 (proj2 (voter_count_counts_eligible_names list_blank_only)));
      [discriminate | reflexivity].
Defined.

(** X6.  [preview_names] works on the lines of the text that are not
    blank, each trimmed and in its own letter case (lower-cased, they
    are the entries of [get_eligible_names]).  With no such line, the
    text empty or made of blank lines, it returns "No names added";
    otherwise it returns the first three of them separated by ", ",
    followed by " ... (+k more)" exactly when there are more than
    three, k being the number of the others. *)
Theorem preview_names_shows_first_three (obj : RegisteredVoter) :
  let shown_names :=
    map strip (filter (fun line => negb (all_space line))
                      (split LF (names obj))) in
  map lower shown_names = get_eligible_names obj /\
  (shown_names = [] -> preview_names obj = "No names added") /\
  (shown_names <> [] ->
   preview_names obj =
   (join_str ", " (firstn 3 shown_names)
    ++ (if (3 <? List.length shown_names)%nat
        then " ... (+" ++ str_of_nat (List.length shown_names - 3)
             ++ " more)"
        else ""))%string).
Proof.
  cbv zeta.
  assert (Hs : stripped_names (names obj) =
               map strip (filter (fun line => negb (all_space line))
                                 (split LF (names obj)))).
  { unfold stripped_names. f_equal. apply filter_ext. intros line.
    destruct (all_space line) eqn:E.
    - apply strip_empty_iff in E. now rewrite E.
    - apply truthy_true_iff. intros H. apply strip_empty_iff in H.
      congruence. }
  rewrite <- Hs. split; [|split].
  - symmetry. apply get_eligible_names_stripped.
  - intros He. unfold preview_names.
    destruct (truthy (names obj)); [|reflexivity]. cbv zeta. now rewrite He.
  - intros Hne. unfold preview_names.
    destruct (truthy (names obj)) eqn:Et.
    + cbv zeta. destruct (stripped_names (names obj)) as [|x xs];
        [now destruct Hne|].
      destruct (3 <? List.length (x :: xs))%nat; [reflexivity|].
      now rewrite append_empty_r.
    + exfalso. apply Hne.
      destruct (names obj); [reflexivity | discriminate].
Qed.

Lemma preview_names_shows_first_three_witness :
  preview_names list_blank_only = "No names added" /\
  preview_names list_five = "Ann, Ben, Cy ... (+2 more)".
Proof.
  split.
  - apply (proj1 (proj2 (preview_names_shows_first_three list_blank_only))).
    reflexivity.
  - apply (proj2 (proj2 (preview_names_shows_first_three list_five))).
    discriminate.
Defined.

Example preview_names_list_five :
  preview_names list_five = "Ann, Ben, Cy ... (+2 more)".
Proof. reflexivity. Qed.

(** ** The admin's validity checks *)

Module StatusFacts.
Import PyStr PyStrFacts SplitFacts NamesFacts ScanFacts AdminFacts.

(** The status column shows a valid registration exactly when the
    record has a list and the lower-cased fullname is among its names. *)
Lemma registration_status_valid_iff (obj : Voter) :
  registration_status obj = ValidRegistration <->
  exists l, registered_list obj = Some l /\
            lowered_name_in_list obj l = true.
Proof.
  destruct (registered_list obj) as [l|] eqn:El.
  - destruct (truthy (names l)) eqn:Et.
    + rewrite (registration_status_Some obj l El Et).
      destruct (lowered_name_in_list obj l) eqn:E; split.
      * eauto.
      * reflexivity.
      * discriminate.
      * intros (l' & [= <-] & H). congruence.
    + unfold registration_status. rewrite El, Et. cbn [negb]. split.
      * discriminate.
      * intros (l' & [= <-] & H). exfalso.
        unfold lowered_name_in_list, get_eligible_names in H.
        rewrite Et in H. discriminate.
  - unfold registration_status. rewrite El. split; [discriminate|].
    intros (l & H & _). discriminate.
Qed.

Lemma export_status_valid_iff (voter : Voter) :
  export_status voter = "Valid" <->
  exists l, registered_list voter = Some l /\
            lowered_name_in_list voter l = true.
Proof.
  unfold export_status. destruct (registered_list voter) as [l|].
  - destruct (lowered_name_in_list voter l) eqn:E.
    + split; eauto.
    + split; [discriminate|]. intros (l' & [= <-] & H). congruence.
  - split; [discriminate|]. intros (l & H & _). discriminate.
Qed.

(** The counters of the validation loop: each voter adds one to exactly
    one of them. *)
Lemma validate_loop_counts (queryset : list Voter) (v i : nat) :
  validate_loop queryset v i =
  (v + List.length
         (filter (fun voter => String.eqb (export_status voter) "Valid")
                 queryset),
   i + List.length
         (filter (fun voter =>
                    negb (String.eqb (export_status voter) "Valid"))
                 queryset)).
Proof.
  revert v i. induction queryset as [|voter rest IH]; intros v i.
  - simpl. f_equal; lia.
  - assert (Hp : String.eqb (export_status voter) "Valid" =
                 match registered_list voter with
                 | Some l => lowered_name_in_list voter l
                 | None => false
                 end).
    { unfold export_status. destruct (registered_list voter) as [l|];
        [destruct (lowered_name_in_list voter l)|]; reflexivity. }
    cbn [validate_loop filter]. rewrite Hp.
    destruct (registered_list voter) as [l|];
      [destruct (lowered_name_in_list voter l)|];
      rewrite IH; cbn [negb List.length]; f_equal; lia.
Qed.

End StatusFacts.

Import StatusFacts.

(** X7.  After a successful [save] the admin's status column shows
    "Valid Registration" exactly when the fullname was entered with no
    white space around it, and "Name not in eligible list" otherwise:
    [save] trims the name before looking it up and stores it untrimmed,
    and [registration_status] looks the stored name up without trimming
    it. *)
Theorem registration_status_after_save
  (Model_save : Store -> Voter -> option Store)
  (db db' : Store) (self self' : Voter) :
  save Model_save db self = (inr self', db') ->
  (registration_status self' = ValidRegistration <->
   strip (fullname self) = fullname self) /\
  (registration_status self' = NameNotInList <->
   strip (fullname self) <> fullname self).
Proof.
  unfold save. rewrite clean_spec.
  destruct (is_eligible_voter db (fullname self)) as [l|] eqn:E;
    [|discriminate].
  destruct (Model_save db (set_registered_list self l)); [|discriminate].
  intros [= <- _].
  assert (Hin : name_in_list (fullname self) l = true).
  { unfold is_eligible_voter in E. apply loop_Some in E.
    now destruct E as (_ & _ & _ & H & _). }
  assert (Ht : truthy (names l) = true).
  { apply name_in_list_true in Hin. now apply truthy_names_of_member in Hin. }
  rewrite (registration_status_Some (set_registered_list self l) l eq_refl Ht).
  pose proof (lowered_name_in_list_iff (set_registered_list self l) l Hin)
    as Hiff. cbn [fullname set_registered_list] in Hiff.
  destruct (lowered_name_in_list (set_registered_list self l) l).
  - assert (Hs : strip (fullname self) = fullname self)
      by now apply Hiff.
    split; split.
    + intros _. exact Hs.
    + reflexivity.
    + discriminate.
    + intros Hne. now destruct Hne.
  - assert (Hs : strip (fullname self) <> fullname self).
    { intros H. apply Hiff in H. discriminate. }
    split; split.
    + discriminate.
    + intros H. now destruct Hs.
    + intros _. exact Hs.
    + reflexivity.
Qed.

Lemma registration_status_after_save_witness :
  registration_status (set_registered_list voter_bob list_B) = NameNotInList /\
  registration_status (set_registered_list voter_bob_with_A list_B)
  = ValidRegistration.
Proof.
  split.
  - apply (proj2 (registration_status_after_save append_row db_AB
                    (mkStore [list_A; list_B]
                             [set_registered_list voter_bob list_B])
                    voter_bob (set_registered_list voter_bob list_B)
                    eq_refl)).
    discriminate.
  - apply (proj1 (registration_status_after_save append_row db_AB
                    (mkStore [list_A; list_B]
                             [set_registered_list voter_bob_with_A list_B])
                    voter_bob_with_A
                    (set_registered_list voter_bob_with_A list_B)
                    eq_refl)).
    reflexivity.
Defined.

(** X8.  [validate_all_registrations] counts every selected voter
    once: the two counts of its message add up to the number of voters,
    and the count of valid registrations is the number of voters whose
    status column shows "Valid Registration". *)
Theorem validate_all_registrations_counts (queryset : list Voter) :
  exists valid_count invalid_count,
    validate_loop queryset 0 0 = (valid_count, invalid_count) /\
    valid_count + invalid_count = List.length queryset /\
    valid_count =
      List.length
        (filter (fun voter =>
                   match registration_status voter with
                   | ValidRegistration => true
                   | _ => false
                   end) queryset) /\
    validate_all_registrations queryset =
      ("Validation complete: " ++ str_of_nat valid_count
        ++ " valid registrations, " ++ str_of_nat invalid_count
        ++ " invalid registrations.")%string.
Proof.
  pose proof (validate_loop_counts queryset 0 0) as H. cbn [Nat.add] in H.
  eexists _, _. split; [exact H|]. split; [|split].
  - rewrite <- (filter_length (fun voter =>
                  String.eqb (export_status voter) "Valid") queryset).
    reflexivity.
  - f_equal. apply filter_ext. intros voter.
    destruct (String.eqb_spec (export_status voter) "Valid") as [Hv|Hv].
    + apply export_status_valid_iff, registration_status_valid_iff in Hv.
      now rewrite Hv.
    + destruct (registration_status voter) eqn:Er; try reflexivity.
      exfalso. apply Hv.
      now apply export_status_valid_iff, registration_status_valid_iff.
  - unfold validate_all_registrations. now rewrite H.
Qed.

(** X9.  [export_voter_data] writes the header and one row for each
    selected voter, and the number of rows whose status is "Valid" is
    the count of valid registrations that [validate_all_registrations]
    reports for the same voters. *)
Theorem export_voter_data_rows (queryset : list Voter) :
  List.length (export_voter_data queryset) = S (List.length queryset) /\
  Forall (fun row => List.length row = 5) (export_voter_data queryset) /\
  List.length
    (filter (fun row => String.eqb (nth 4 row "") "Valid")
            (export_rows queryset))
  = fst (validate_loop queryset 0 0).
Proof.
  rewrite validate_loop_counts. cbn [fst Nat.add].
  unfold export_voter_data.
  induction queryset as [|voter rest (IHl & IHf & IHv)].
  - repeat split. repeat constructor.
  - split; [|split].
    + cbn [export_rows List.length] in *. now rewrite IHl.
    + inversion IHf as [|? ? Hh Hr]; subst.
      constructor; [reflexivity|]. constructor; [reflexivity | exact Hr].
    + cbn [export_rows filter nth].
      destruct (String.eqb (export_status voter) "Valid");
        cbn [List.length]; now rewrite IHv.
Qed.

(** X10.  The status of the export and the status column agree on which
    voters are valid, and differ on a voter whose list has an empty
    text: the export says "No List Assigned" only for a voter with no
    list, and says "Invalid" for a voter whose list has an empty text,
    where the status column shows that no list is assigned. *)
Theorem export_status_and_status_column (voter : Voter) :
  (export_status voter = "Valid" <->
   registration_status voter = ValidRegistration) /\
  (export_status voter = "No List Assigned" <->
   registered_list voter = None) /\
  (registration_status voter = NoListAssigned <->
   registered_list voter = None \/
   exists l, registered_list voter = Some l /\ names l = "") /\
  (forall l, registered_list voter = Some l -> names l = "" ->
             export_status voter = "Invalid").
Proof.
  split; [|split; [|split]].
  - now rewrite export_status_valid_iff, registration_status_valid_iff.
  - unfold export_status. destruct (registered_list voter) as [l|].
    + destruct (lowered_name_in_list voter l); split; discriminate.
    + split; reflexivity.
  - unfold registration_status.
    destruct (registered_list voter) as [l|] eqn:El.
    + destruct (names l) as [|c s] eqn:En; cbn [truthy negb].
      * split; [|reflexivity]. intros _. right. eauto.
      * destruct (contains _ _); split; try discriminate;
          intros [H|(l' & [= <-] & H)]; congruence.
    + split; [now left | reflexivity].
  - intros l El En. unfold export_status, lowered_name_in_list.
    rewrite El. unfold get_eligible_names. now rewrite En.
Qed.

Lemma export_status_and_status_column_witness :
  export_status (mkVoter "bob" "b@x.y" "1" "2"
                   (Some (mkRegisteredVoter 9 ""))) = "Invalid".
Proof.
  apply (proj2 (proj2 (proj2 (export_status_and_status_column
           (mkVoter "bob" "b@x.y" "1" "2" (Some (mkRegisteredVoter 9 ""))))))
         (mkRegisteredVoter 9 "")); reflexivity.
Defined.

(** ** How lists and texts compose *)

Module ComposeFacts.
Import PyStr PyStrFacts SplitFacts NamesFacts ScanFacts.

(** The lines of two texts joined by a line feed are the lines of the
    first followed by the lines of the second. *)
Lemma split_app_LF (s t : string) :
  split LF (s ++ String LF t) = split LF s ++ split LF t.
Proof.
  induction s as [|c s IH]; cbn [append split].
  - now rewrite Ascii.eqb_refl.
  - rewrite IH. destruct (Ascii.eqb c LF); [reflexivity|].
    destruct (split LF s) as [|p rest] eqn:E; [|reflexivity].
    now destruct (split_not_nil LF s).
Qed.

Lemma name_in_list_same_normal_form (f f' : string) (l : RegisteredVoter) :
  lower (strip f) = lower (strip f') ->
  name_in_list f l = name_in_list f' l.
Proof.
  intros H. unfold name_in_list. cbv zeta.
  now rewrite <- !lower_strip, H.
Qed.

Lemma loop_app (xs ys : list RegisteredVoter) (fullname : string) :
  is_eligible_voter_loop (xs ++ ys) fullname =
  match is_eligible_voter_loop xs fullname with
  | Some l => Some l
  | None => is_eligible_voter_loop ys fullname
  end.
Proof.
  induction xs as [|x xs IH]; [reflexivity|].
  cbn [app is_eligible_voter_loop].
  destruct (name_in_list fullname x); [reflexivity | exact IH].
Qed.

End ComposeFacts.

Import ComposeFacts.

(** X11.  [is_eligible_voter] does not tell apart two spellings of a
    name that agree once trimmed and lower-cased: it returns the same
    list, or [None], for both. *)
Theorem is_eligible_voter_same_normal_form (db : Store) (f f' : string) :
  lower (strip f) = lower (strip f') ->
  is_eligible_voter db f = is_eligible_voter db f'.
Proof.
  intros H. unfold is_eligible_voter.
  induction (registered_voters db) as [|l rest IH]; [reflexivity|].
  cbn [is_eligible_voter_loop].
  now rewrite (name_in_list_same_normal_form f f' l H), IH.
Qed.

Lemma is_eligible_voter_same_normal_form_witness :
  is_eligible_voter db_AB " BOB " = is_eligible_voter db_AB "bob".
Proof.
  apply (is_eligible_voter_same_normal_form db_AB " BOB " "bob").
  reflexivity.
Defined.

(** X12.  Lists retrieved after the others never take a match away: the
    lookup over the rows followed by further rows returns what the
    lookup over the first rows returns when that finds a list, and the
    result of the lookup over the further rows only when it does not. *)
Theorem is_eligible_voter_more_lists
  (xs ys : list RegisteredVoter) (vs : list Voter) (fullname : string) :
  is_eligible_voter (mkStore (xs ++ ys) vs) fullname =
  match is_eligible_voter (mkStore xs vs) fullname with
  | Some l => Some l
  | None => is_eligible_voter (mkStore ys vs) fullname
  end.
Proof. unfold is_eligible_voter. cbn [registered_voters]. apply loop_app. Qed.

(** X13.  The names of a text made of two texts joined by a line feed
    are the names of the first text followed by the names of the
    second: lines added at the end of a list add their names at the end
    and leave the names before them as they were. *)
Theorem get_eligible_names_app (k k1 k2 : Z) (s t : string) :
  get_eligible_names (mkRegisteredVoter k (s ++ String LF t))
  = get_eligible_names (mkRegisteredVoter k1 s)
    ++ get_eligible_names (mkRegisteredVoter k2 t).
Proof.
  rewrite !get_eligible_names_unfold. cbn [names].
  now rewrite split_app_LF, filter_app, map_app.
Qed.

Example get_eligible_names_app_sample :
  get_eligible_names
    (mkRegisteredVoter 1 ("Alice" ++ String LF (" Bob " ++ String LF "")))
  = ["alice"; "bob"].
Proof. reflexivity. Qed.
